(** * discursis: the notebook validator, the upload demo and the bokeh hook

    A shallow embedding of the three Python scripts of the repository

      - [validate_notebooks.py]  ([validate], [is_notebook_valid]),
      - [notebooks/demo.py]      ([read_uploaded_file]),
      - [bokeh_server.py]        ([_load_jupyter_server_extension]),

    over a small model of the Python run time they use: exceptions with
    their class hierarchy, [try]/[except], the [with] statement, [print],
    [sys.exit], [open], [subprocess.Popen] and dictionary or sequence
    subscripts.  The packages the scripts call into ([nbformat], [pandas])
    are not part of the repository; they enter as interfaces. *)

From Stdlib Require Import Ascii.
From stdpp Require Import gmap strings list fin_maps pretty.

Open Scope Z_scope.

(** ** Exceptions *)

(** The exception classes the scripts and their collaborators can raise.
    [NotebookValidationError] is the subclass of [ValidationError] that
    [nbformat.validate] raises; [NotJSONError] and [NBFormatError] are
    [nbformat]'s reader errors. *)
Inductive exn_class :=
  | Exception
  | OSError | FileNotFoundError | PermissionError | IsADirectoryError
  | ValueError | UnicodeDecodeError | NotJSONError | NBFormatError
  | LookupError | KeyError | IndexError
  | ImportError
  | ValidationError | NotebookValidationError.

#[global] Instance exn_class_eq_dec : EqDecision exn_class.
Proof. solve_decision. Defined.

(** The direct base class, [None] for the root [Exception]. *)
Definition base (c : exn_class) : option exn_class :=
  match c with
  | Exception => None
  | OSError | ValueError | LookupError | ImportError | ValidationError =>
      Some Exception
  | FileNotFoundError | PermissionError | IsADirectoryError => Some OSError
  | UnicodeDecodeError | NotJSONError | NBFormatError => Some ValueError
  | KeyError | IndexError => Some LookupError
  | NotebookValidationError => Some ValidationError
  end.

(** [issubclass c d]: the hierarchy above has depth three. *)
Definition issubclass (c d : exn_class) : bool :=
  bool_decide (c = d)
  || match base c with
     | None => false
     | Some c1 =>
         bool_decide (c1 = d)
         || match base c1 with
            | None => false
            | Some c2 => bool_decide (c2 = d)
            end
     end.

(** A raised exception: an instance of a class carrying its text (what
    [str] gives), or [SystemExit], which derives from [BaseException] and
    so from none of the classes above. *)
Inductive exn :=
  | Raised (cls : exn_class) (msg : string)
  | SystemExit (code : Z).

Definition isinstance (e : exn) (c : exn_class) : bool :=
  match e with
  | Raised cls _ => issubclass cls c
  | SystemExit _ => false
  end.

Definition str (e : exn) : string :=
  match e with
  | Raised _ msg => msg
  | SystemExit _ => ""
  end.

(** The result of evaluating a Python expression or statement. *)
Inductive outcome (A : Type) :=
  | Ret (a : A)
  | Exc (e : exn).
Arguments Ret {A} a.
Arguments Exc {A} e.

(** The status the interpreter hands to the operating system: an uncaught
    [SystemExit] gives its code without a traceback, any other uncaught
    exception prints a traceback and gives 1. *)
Definition exit_status {A} (r : outcome A) : Z :=
  match r with
  | Ret _ => 0
  | Exc (SystemExit code) => code
  | Exc (Raised _ _) => 1
  end.

(** ** Values *)

(** Parsed documents: a notebook is a [dict] at the root. *)
#[local] Unset Elimination Schemes.
Inductive json :=
  | JNull
  | JBool (b : bool)
  | JInt (n : Z)
  | JStr (s : string)
  | JList (l : list json)
  | JDict (d : list (string * json)).
#[local] Set Elimination Schemes.

Definition dict := list (string * json).

Fixpoint dict_get (d : dict) (k : string) : option json :=
  match d with
  | [] => None
  | (k', v) :: rest => if bool_decide (k' = k) then Some v else dict_get rest k
  end.

(** ** The world a script runs in *)

Inductive node :=
  | RegularFile (readable : bool) (content : string)
  | Directory.

(** The argument [as_version] of [nbformat.read]. *)
Inductive as_version :=
  | NO_CONVERT
  | ToVersion (v : Z).

(** Calls a script makes to what lies outside it, in the order made. *)
Inductive event :=
  | EvOpen (path : string)
  | EvClose (fd : nat)
  | EvNbRead (fd : nat) (conv : as_version)
  | EvNbValidate (nb : dict) (version : json)
  | EvReadExcel (content : json)
  | EvPopen (argv : list string).

Record World := mkWorld {
  fs : gmap string node;          (* the file system, by path *)
  open_fds : gmap nat string;     (* open file handles and their paths *)
  stdout : string;                (* everything written to standard output *)
  calls : list event;             (* the calls made so far *)
  on_path : gset string;          (* the programs the shell can find *)
  children : list (list string)   (* the child processes spawned so far *)
}.

Definition set_open_fds (f : gmap nat string → gmap nat string) (w : World) :=
  mkWorld (fs w) (f (open_fds w)) (stdout w) (calls w) (on_path w) (children w).
Definition set_stdout (f : string → string) (w : World) :=
  mkWorld (fs w) (open_fds w) (f (stdout w)) (calls w) (on_path w) (children w).
Definition log (ev : event) (w : World) :=
  mkWorld (fs w) (open_fds w) (stdout w) (calls w ++ [ev]) (on_path w)
          (children w).
Definition add_child (argv : list string) (w : World) :=
  mkWorld (fs w) (open_fds w) (stdout w) (calls w) (on_path w)
          (children w ++ [argv]).

(** ** Statements: state passing with exceptions *)

Definition M (A : Type) : Type := World → outcome A * World.

#[global] Instance M_ret : MRet M := λ A a w, (Ret a, w).
#[global] Instance M_bind : MBind M := λ A B k m w,
  match m w with
  | (Ret a, w') => k a w'
  | (Exc e, w') => (Exc e, w')
  end.

Definition raise {A} (e : exn) : M A := λ w, (Exc e, w).

(** [try: body except cls as error: handler error]. *)
Definition try_except {A} (body : M A) (cls : exn_class)
    (handler : exn → M A) : M A := λ w,
  match body w with
  | (Ret a, w') => (Ret a, w')
  | (Exc e, w') => if isinstance e cls then handler e w' else (Exc e, w')
  end.

(** [sys.exit(code)]. *)
Definition sys_exit {A} (code : Z) : M A := raise (SystemExit code).

Definition nl : string := String "010"%char "".

Fixpoint join (sep : string) (parts : list string) : string :=
  match parts with
  | [] => ""
  | [s] => s
  | s :: rest => s +:+ sep +:+ join sep rest
  end.

(** [print] of its arguments: their texts separated by one space, then a
    newline. *)
Definition print (args : list string) : M unit := λ w,
  (Ret tt, set_stdout (λ out, out +:+ join " " args +:+ nl) w).

(** [open(path)] for reading.  The handle is one not in use. *)
Definition open (path : string) : M nat := λ w,
  let w := log (EvOpen path) w in
  match fs w !! path with
  | None => (Exc (Raised FileNotFoundError path), w)
  | Some Directory => (Exc (Raised IsADirectoryError path), w)
  | Some (RegularFile false _) => (Exc (Raised PermissionError path), w)
  | Some (RegularFile true _) =>
      let fd := fresh (dom (open_fds w)) in
      (Ret fd, set_open_fds (insert fd path) w)
  end.

Definition close (fd : nat) : M unit := λ w,
  (Ret tt, set_open_fds (delete fd) (log (EvClose fd) w)).

(** [with open(path) as f: body f]: the handle is closed when the block
    is left, whether it returns or raises. *)
Definition with_open {A} (path : string) (body : nat → M A) : M A := λ w,
  match open path w with
  | (Exc e, w1) => (Exc e, w1)
  | (Ret fd, w1) =>
      let (r, w2) := body fd w1 in
      (r, (close fd w2).2)
  end.

(** [d[key]] on a [dict]. *)
Definition getitem (d : dict) (key : string) : M json :=
  match dict_get d key with
  | Some v => mret v
  | None => raise (Raised KeyError key)
  end.

(** [xs[i]] on a sequence, with Python's negative indices. *)
Definition subscript {A} (xs : list A) (i : Z) : M A :=
  let n := Z.of_nat (length xs) in
  let j := if (i <? 0)%Z then i + n else i in
  if (0 <=? j)%Z && (j <? n)%Z then
    match xs !! Z.to_nat j with
    | Some x => mret x
    | None => raise (Raised IndexError "index out of range")
    end
  else raise (Raised IndexError "index out of range").

(** [subprocess.Popen(argv)]: starts the program and returns at once with
    the child's index; fails when the program is not found. *)
Definition Popen (argv : list string) : M nat := λ w,
  let w := log (EvPopen argv) w in
  match argv with
  | prog :: _ =>
      if bool_decide (prog ∈ on_path w)
      then (Ret (length (children w)), add_child argv w)
      else (Exc (Raised FileNotFoundError prog), w)
  | [] => (Exc (Raised IndexError "list index out of range"), w)
  end.

(** ** The [nbformat] package, as the scripts see it *)

Module nbformat.

(** What the package answers during one run of the interpreter: how a
    file's text parses under a conversion mode, and whether a document
    passes the schema of a version.  Whatever the package keeps to itself
    (its registry of schemas, the identifiers it makes up for cells that
    have none) is fixed within a [Lib]; another run may face another
    [Lib]. *)
Record Lib := mkLib {
  reads : string → as_version → outcome dict;
  schema_check : dict → json → outcome unit
}.

(** [nbformat.read(fp, as_version)] reads all of the open file [fp]. *)
Definition read (lib : Lib) (fp : nat) (conv : as_version) : M dict := λ w,
  let w := log (EvNbRead fp conv) w in
  match open_fds w !! fp with
  | None => (Exc (Raised ValueError "I/O operation on closed file."), w)
  | Some path =>
      match fs w !! path with
      | Some (RegularFile _ content) => (reads lib content conv, w)
      | _ => (Exc (Raised OSError path), w)
      end
  end.

(** [nbformat.validate(nb, version=version)]. *)
Definition validate (lib : Lib) (nb : dict) (version : json) : M unit := λ w,
  (schema_check lib nb version, log (EvNbValidate nb version) w).

End nbformat.

(** ** validate_notebooks.py

    [validate] is the body of the [click] command: [click] hands it the
    one positional argument as a string and lets whatever it raises
    ([SystemExit] included) pass on to the interpreter. *)

Module validate_notebooks.
Section script.

Variable lib : nbformat.Lib.

Definition is_notebook_valid (path : string) : M unit :=
  notebook ← with_open path (λ file_in,
                nbformat.read lib file_in NO_CONVERT);
  format_version ← getitem notebook "nbformat";
  nbformat.validate lib notebook format_version.

Definition validate (filename : string) : M unit :=
  try_except
    (is_notebook_valid filename;;
     print [filename +:+ " is valid"];;
     sys_exit 0)
    ValidationError
    (λ error,
       print [filename; str error];;
       sys_exit 1).

End script.
End validate_notebooks.

(** ** notebooks/demo.py *)

Module demo.
Section script.

(** [pandas.read_excel] on an in-memory buffer, and the table type it
    returns, belong to [pandas]. *)
Variable DataFrame : Type.
Variable read_excel_bytes : json → outcome DataFrame.

(** The widget: [value] holds one [dict] per uploaded file. *)
Record FileUpload := mkFileUpload { value : list dict }.

(** [pd.read_excel(io.BytesIO(content))]. *)
Definition read_excel (content : json) : M DataFrame := λ w,
  (read_excel_bytes content, log (EvReadExcel content) w).

Definition read_uploaded_file (uploader : FileUpload) : M DataFrame :=
  (if negb (bool_decide (length (value uploader) = 1%nat))
   then print ["This example code only works for a single uploaded file"]
   else mret tt);;
  file_info ← subscript (value uploader) 0;
  print ["Reading data..."];;
  content ← getitem file_info "content";
  data ← read_excel content;
  mret data.

End script.
End demo.

(** ** bokeh_server.py *)

Module bokeh_server.
Section script.

(** The class of the server application object is not inspected. *)
Variable ServerApp : Type.

Definition bokeh_argv : list string :=
  ["bokeh"; "serve"; "bokeh-app"; "--allow-websocket-origin=*"].

Definition _load_jupyter_server_extension (serverapp : ServerApp) : M unit :=
  Popen bokeh_argv;;
  mret tt.

End script.
End bokeh_server.

(** ** A stand-in for [nbformat] and sample worlds

    Enough of the package to run the scripts on a handful of documents:
    [reads] knows exactly the texts below, and [schema_check] knows major
    version 4 with its three cell types and that versions 1 and 2 have
    no schema.  A cell without [metadata] does not get past the reader.
    The text of a schema error has several lines, as the package's own
    has. *)

Module stub.

Definition q (s : string) : string :=
  String "034"%char "" +:+ s +:+ String "034"%char "".

(** The text of [good.ipynb]. *)
Definition good_src : string :=
  "{" +:+ q "nbformat" +:+ ": 4, " +:+ q "nbformat_minor" +:+ ": 5, "
  +:+ q "cells" +:+ ": [], " +:+ q "metadata" +:+ ": {}}".

(** The text of [bad.ipynb]. *)
Definition bad_src : string :=
  "{" +:+ q "nbformat" +:+ ": 4, " +:+ q "nbformat_minor" +:+ ": 5, "
  +:+ q "cells" +:+ ": [{" +:+ q "cell_type" +:+ ": " +:+ q "bogus"
  +:+ "}], " +:+ q "metadata" +:+ ": {}}".

Definition good_nb : dict :=
  [("nbformat", JInt 4); ("nbformat_minor", JInt 5);
   ("cells", JList []); ("metadata", JDict [])].

(** The text of [odd.ipynb]: a complete cell of an unknown type. *)
Definition odd_src : string :=
  "{" +:+ q "nbformat" +:+ ": 4, " +:+ q "nbformat_minor" +:+ ": 5, "
  +:+ q "cells" +:+ ": [{" +:+ q "cell_type" +:+ ": " +:+ q "bogus"
  +:+ ", " +:+ q "id" +:+ ": " +:+ q "cell-1"
  +:+ ", " +:+ q "metadata" +:+ ": {}, " +:+ q "source" +:+ ": " +:+ q ""
  +:+ "}], " +:+ q "metadata" +:+ ": {}}".

(** The text of [noid.ipynb]: the same cell without its [id]. *)
Definition noid_src : string :=
  "{" +:+ q "nbformat" +:+ ": 4, " +:+ q "nbformat_minor" +:+ ": 5, "
  +:+ q "cells" +:+ ": [{" +:+ q "cell_type" +:+ ": " +:+ q "bogus"
  +:+ ", " +:+ q "metadata" +:+ ": {}, " +:+ q "source" +:+ ": " +:+ q ""
  +:+ "}], " +:+ q "metadata" +:+ ": {}}".

(** The text of [v1.ipynb]: a document of major version 1. *)
Definition v1_src : string :=
  "{" +:+ q "nbformat" +:+ ": 1, " +:+ q "cells" +:+ ": []}".

Definition odd_nb : dict :=
  [("nbformat", JInt 4); ("nbformat_minor", JInt 5);
   ("cells", JList [JDict [("cell_type", JStr "bogus");
                           ("id", JStr "cell-1");
                           ("metadata", JDict []); ("source", JStr "")]]);
   ("metadata", JDict [])].

Definition noid_nb : dict :=
  [("nbformat", JInt 4); ("nbformat_minor", JInt 5);
   ("cells", JList [JDict [("cell_type", JStr "bogus");
                           ("metadata", JDict []); ("source", JStr "")]]);
   ("metadata", JDict [])].

Definition v1_nb : dict := [("nbformat", JInt 1); ("cells", JList [])].

Definition missing_key_msg : string :=
  "The notebook is invalid and is missing an expected key: metadata".

Definition reads (text : string) (conv : as_version) : outcome dict :=
  if bool_decide (text = good_src) then Ret good_nb
  else if bool_decide (text = bad_src)
  then Exc (Raised ValidationError missing_key_msg)
  else if bool_decide (text = odd_src) then Ret odd_nb
  else if bool_decide (text = noid_src) then Ret noid_nb
  else if bool_decide (text = v1_src) then Ret v1_nb
  else Exc (Raised NotJSONError "Notebook does not appear to be JSON").

Definition cell_ok (cell : json) : bool :=
  match cell with
  | JDict d =>
      match dict_get d "cell_type" with
      | Some (JStr t) => bool_decide (t ∈ ["code"; "markdown"; "raw"])
      | _ => false
      end
  | _ => false
  end.

Definition bad_cell_msg : string :=
  "cell is not valid under any of the given schemas" +:+ nl +:+ nl
  +:+ "Failed validating 'oneOf' in notebook['cells'][0]".

(** The minor version a document declares, 0 when it declares none. *)
Definition minor_of (nb : dict) : Z :=
  match dict_get nb "nbformat_minor" with
  | Some (JInt minor) => minor
  | _ => 0
  end.

Definition no_schema_msg (major minor : Z) : string :=
  "No schema for validating v" +:+ pretty major +:+ "." +:+ pretty minor
  +:+ " notebooks".

Definition schema_check (nb : dict) (version : json) : outcome unit :=
  match version with
  | JInt 4 =>
      match dict_get nb "cells" with
      | Some (JList cells) =>
          if forallb cell_ok cells then Ret tt
          else Exc (Raised NotebookValidationError bad_cell_msg)
      | _ =>
          Exc (Raised NotebookValidationError
                 "'cells' is a required property")
      end
  | JInt 1 => Exc (Raised ValidationError (no_schema_msg 1 (minor_of nb)))
  | JInt 2 => Exc (Raised ValidationError (no_schema_msg 2 (minor_of nb)))
  | _ => Exc (Raised ImportError "No module named nbformat.v")
  end.

Definition lib : nbformat.Lib := nbformat.mkLib reads schema_check.

(** A writer for version 4 that always emits the empty notebook. *)
Definition write (nb : dict) (version : Z) : string := good_src.

(** A directory with the notebooks above, a file that may not be read,
    a file that is no notebook, and a subdirectory; nothing printed or
    opened yet; [bokeh] installed. *)
Definition w0 : World :=
  mkWorld
    (list_to_map
       [("good.ipynb", RegularFile true good_src);
        ("bad.ipynb", RegularFile true bad_src);
        ("odd.ipynb", RegularFile true odd_src);
        ("noid.ipynb", RegularFile true noid_src);
        ("v1.ipynb", RegularFile true v1_src);
        ("two" +:+ nl +:+ "lines.ipynb", RegularFile true good_src);
        ("secret.ipynb", RegularFile false good_src);
        ("notes.txt", RegularFile true "remember the milk");
        ("data", Directory)])
    ∅ "" [] {[ "bokeh" ]} [].

(** The same directory later on: a handle is open on another file and
    something was printed. *)
Definition w1 : World :=
  mkWorld (fs w0) {[ 0%nat := "notes.txt" ]} ("earlier output" +:+ nl)
          [EvOpen "notes.txt"] ∅ [].

End stub.

(** ** Further sample collaborators and inputs *)

Module samples.

(** A notebook that declares no format-version. *)
Definition versionless_nb : dict := [("cells", JList []); ("metadata", JDict [])].

(** A reader that accepts any text as the notebook above. *)
Definition versionless_lib : nbformat.Lib :=
  nbformat.mkLib (λ _ _, Ret versionless_nb) stub.schema_check.

(** A reader that itself raises a validation error on whatever it reads. *)
Definition strict_reader_error : exn :=
  Raised ValidationError "Notebook JSON is invalid".

Definition strict_reader_lib : nbformat.Lib :=
  nbformat.mkLib (λ _ _, Exc strict_reader_error) stub.schema_check.





(** Uploads: a spreadsheet, a second one, and an entry without content. *)
Definition sheet_a : dict :=
  [("name", JStr "a.xlsx"); ("size", JInt 2); ("content", JStr "PK")].

Definition sheet_b : dict :=
  [("name", JStr "b.xlsx"); ("size", JInt 3); ("content", JStr "PK2")].

Definition bare_entry : dict := [("name", JStr "c.xlsx"); ("size", JInt 0)].

(** A spreadsheet reader that hands the bytes back as the table. *)
Definition echo_excel (content : json) : outcome json := Ret content.

End samples.

(** ** Vocabulary of the statements *)

(** Lines on standard output: one per newline written. *)
Fixpoint count_lines (s : string) : nat :=
  match s with
  | EmptyString => 0%nat
  | String c rest =>
      ((if bool_decide (c = "010"%char) then 1 else 0) + count_lines rest)%nat
  end.

(** [path] names a regular file the process may read, holding [text]. *)
Definition holds_text (w : World) (path text : string) : Prop :=
  fs w !! path = Some (RegularFile true text).

(** [text] parses, unconverted, as the notebook [nb]. *)
Definition parses_as (lib : nbformat.Lib) (text : string) (nb : dict) : Prop :=
  nbformat.reads lib text NO_CONVERT = Ret nb.

(** The format-version a notebook declares at its root. *)
Definition declares (nb : dict) (version : json) : Prop :=
  dict_get nb "nbformat" = Some version.


(** The world in which the [with] block of [is_notebook_valid] is left:
    the handle [fd] was opened on [path], read once and closed. *)
Definition after_with (w : World) (path : string) (fd : nat) : World :=
  mkWorld (fs w) (open_fds w) (stdout w)
          (calls w ++ [EvOpen path; EvNbRead fd NO_CONVERT; EvClose fd])
          (on_path w) (children w).

(** A writer is conformant for major version [V] when whatever it emits
    parses, unconverted, as a notebook that declares [V] and passes the
    schema of [V]. *)
Definition conformant_writer (lib : nbformat.Lib)
    (write : dict → Z → string) (V : Z) : Prop :=
  ∀ nb, ∃ nb',
    parses_as lib (write nb V) nb'
    ∧ declares nb' (JInt V)
    ∧ nbformat.schema_check lib nb' (JInt V) = Ret tt.

(** The reading of "one line each" that takes every input file and both
    clean ways out of [validate], started with nothing printed yet. *)
Definition one_line_on_each_clean_path : Prop :=
  ∀ (lib : nbformat.Lib) (w : World) (filename : string),
    stdout w = "" →
    (validate_notebooks.validate lib filename w).1 = Exc (SystemExit 0)
    ∨ (validate_notebooks.validate lib filename w).1 = Exc (SystemExit 1) →
    count_lines (stdout (validate_notebooks.validate lib filename w).2)
    = 1%nat.

(** * Properties *)

Import validate_notebooks.

Lemma append_cons (x : ascii) (a b : string) :
  String x a +:+ b = String x (a +:+ b).
Proof. reflexivity. Qed.

Lemma append_assoc (a b c : string) : (a +:+ b) +:+ c = a +:+ b +:+ c.
Proof.
  induction a as [|x a IH]; [reflexivity|].
  rewrite !append_cons. by f_equal.
Qed.

Lemma count_lines_append (a b : string) :
  count_lines (a +:+ b) = (count_lines a + count_lines b)%nat.
Proof.
  induction a as [|x a IH]; [reflexivity|].
  rewrite append_cons. simpl. rewrite IH. lia.
Qed.

Lemma append_nil_r (a : string) : a +:+ "" = a.
Proof.
  induction a as [|x a IH]; [reflexivity|].
  rewrite append_cons. by f_equal.
Qed.

Lemma count_lines_nl : count_lines nl = 1%nat.
Proof. reflexivity. Qed.

(** ** Symbolic runs of [is_notebook_valid] and [validate] *)

Section runs.

Variable lib : nbformat.Lib.

(** The [with] block, path by path. *)
Lemma with_open_read_run (path : string) (w : World) :
  with_open path (λ file_in, nbformat.read lib file_in NO_CONVERT) w =
  match fs w !! path with
  | None => (Exc (Raised FileNotFoundError path), log (EvOpen path) w)
  | Some Directory =>
      (Exc (Raised IsADirectoryError path), log (EvOpen path) w)
  | Some (RegularFile false _) =>
      (Exc (Raised PermissionError path), log (EvOpen path) w)
  | Some (RegularFile true text) =>
      (nbformat.reads lib text NO_CONVERT,
       after_with w path (fresh (dom (open_fds w))))
  end.
Proof.
  unfold with_open, open. simpl.
  destruct (fs w !! path) as [[[|] text|]|] eqn:Hfs; try reflexivity.
  unfold nbformat.read. simpl. rewrite lookup_insert_eq, Hfs.
  unfold after_with, set_open_fds. simpl. f_equal.
  rewrite delete_insert_id
    by (apply not_elem_of_dom, is_fresh).
  by rewrite <- !app_assoc.
Qed.

Lemma is_notebook_valid_run (path : string) (w : World) :
  is_notebook_valid lib path w =
  match fs w !! path with
  | None => (Exc (Raised FileNotFoundError path), log (EvOpen path) w)
  | Some Directory =>
      (Exc (Raised IsADirectoryError path), log (EvOpen path) w)
  | Some (RegularFile false _) =>
      (Exc (Raised PermissionError path), log (EvOpen path) w)
  | Some (RegularFile true text) =>
      let w2 := after_with w path (fresh (dom (open_fds w))) in
      match nbformat.reads lib text NO_CONVERT with
      | Exc e => (Exc e, w2)
      | Ret nb =>
          match dict_get nb "nbformat" with
          | None => (Exc (Raised KeyError "nbformat"), w2)
          | Some v =>
              (nbformat.schema_check lib nb v, log (EvNbValidate nb v) w2)
          end
      end
  end.
Proof.
  unfold is_notebook_valid, mbind, M_bind.
  rewrite with_open_read_run.
  destruct (fs w !! path) as [[[|] text|]|]; try reflexivity.
  destruct (nbformat.reads lib text NO_CONVERT) as [nb|e]; [|reflexivity].
  unfold getitem. simpl.
  destruct (dict_get nb "nbformat") as [v|]; reflexivity.
Qed.

(** [is_notebook_valid] prints nothing and leaves the files alone. *)
Lemma is_notebook_valid_quiet (path : string) (w : World) :
  stdout (is_notebook_valid lib path w).2 = stdout w
  ∧ fs (is_notebook_valid lib path w).2 = fs w.
Proof.
  rewrite is_notebook_valid_run.
  destruct (fs w !! path) as [[[|] text|]|]; simpl; try done.
  destruct (nbformat.reads lib text NO_CONVERT) as [nb|e]; [|done].
  destruct (dict_get nb "nbformat"); done.
Qed.

(** [validate] in terms of what [is_notebook_valid] did. *)
Lemma validate_run (filename : string) (w : World) :
  validate lib filename w =
  match is_notebook_valid lib filename w with
  | (Ret _, w') =>
      (Exc (SystemExit 0),
       set_stdout (λ out, out +:+ (filename +:+ " is valid") +:+ nl) w')
  | (Exc e, w') =>
      if isinstance e ValidationError
      then (Exc (SystemExit 1),
            set_stdout
              (λ out, out +:+ (filename +:+ " " +:+ str e) +:+ nl) w')
      else (Exc e, w')
  end.
Proof.
  unfold validate, try_except, mbind, M_bind.
  destruct (is_notebook_valid lib filename w) as [[[]|e] w']; simpl.
  - reflexivity.
  - destruct (isinstance e ValidationError); reflexivity.
Qed.

End runs.

(** ** The command [validate] *)

(** C1.  When the file named on the command line can be read, its text
    parses as a notebook, the notebook declares a format-version and
    passes the schema of that version, [validate] writes the single text
    [<filename> is valid] and a newline to standard output and leaves
    through [sys.exit(0)]: the process ends with status 0. *)
Theorem validate_accepts_conforming_file
    (lib : nbformat.Lib) (w : World) (filename text : string)
    (nb : dict) (version : json) :
  holds_text w filename text →
  parses_as lib text nb →
  declares nb version →
  nbformat.schema_check lib nb version = Ret tt →
  (validate lib filename w).1 = Exc (SystemExit 0)
  ∧ exit_status (validate lib filename w).1 = 0
  ∧ stdout (validate lib filename w).2
    = stdout w +:+ (filename +:+ " is valid") +:+ nl.
Proof.
  unfold holds_text, parses_as, declares. intros Hfs Hparse Hdecl Hok.
  rewrite validate_run, is_notebook_valid_run, Hfs. simpl.
  rewrite Hparse, Hdecl, Hok. simpl. auto.
Qed.

Lemma validate_accepts_conforming_file_witness :
  holds_text stub.w0 "good.ipynb" stub.good_src
  ∧ parses_as stub.lib stub.good_src stub.good_nb
  ∧ declares stub.good_nb (JInt 4)
  ∧ (validate stub.lib "good.ipynb" stub.w0).1 = Exc (SystemExit 0)
  ∧ exit_status (validate stub.lib "good.ipynb" stub.w0).1 = 0
  ∧ stdout (validate stub.lib "good.ipynb" stub.w0).2
    = "good.ipynb is valid" +:+ nl.
Proof.
  split; [reflexivity|]. split; [reflexivity|]. split; [reflexivity|].
  apply (validate_accepts_conforming_file
           stub.lib stub.w0 "good.ipynb" stub.good_src stub.good_nb (JInt 4));
    reflexivity.
Defined.

(** C2.  When the file can be read and parses, but the schema check of
    the declared version raises a validation error, [validate] catches
    it, writes the filename, one space, the text of the error and a
    newline to standard output, and only then leaves through
    [sys.exit(1)].  The description printed is the error's own text, so
    it is non-empty whenever the package gives its errors a text. *)
Theorem validate_reports_schema_violation
    (lib : nbformat.Lib) (w : World) (filename text : string)
    (nb : dict) (version : json) (error : exn) :
  holds_text w filename text →
  parses_as lib text nb →
  declares nb version →
  nbformat.schema_check lib nb version = Exc error →
  isinstance error ValidationError = true →
  str error ≠ "" →
  ∃ description : string,
    description = str error
    ∧ description ≠ ""
    ∧ (validate lib filename w).1 = Exc (SystemExit 1)
    ∧ exit_status (validate lib filename w).1 = 1
    ∧ stdout (validate lib filename w).2
      = stdout w +:+ (filename +:+ " " +:+ description) +:+ nl.
Proof.
  unfold holds_text, parses_as, declares.
  intros Hfs Hparse Hdecl Hbad Hcls Htext.
  exists (str error). split; [done|]. split; [done|].
  rewrite validate_run, is_notebook_valid_run, Hfs. simpl.
  rewrite Hparse, Hdecl, Hbad, Hcls. simpl. auto.
Qed.

Lemma validate_reports_schema_violation_witness :
  holds_text stub.w1 "odd.ipynb" stub.odd_src
  ∧ parses_as stub.lib stub.odd_src stub.odd_nb
  ∧ declares stub.odd_nb (JInt 4)
  ∧ ∃ description : string,
      description = stub.bad_cell_msg
      ∧ description ≠ ""
      ∧ (validate stub.lib "odd.ipynb" stub.w1).1 = Exc (SystemExit 1)
      ∧ exit_status (validate stub.lib "odd.ipynb" stub.w1).1 = 1
      ∧ stdout (validate stub.lib "odd.ipynb" stub.w1).2
        = stdout stub.w1 +:+ ("odd.ipynb" +:+ " " +:+ description) +:+ nl.
Proof.
  split; [reflexivity|]. split; [reflexivity|]. split; [reflexivity|].
  apply (validate_reports_schema_violation
           stub.lib stub.w1 "odd.ipynb" stub.odd_src stub.odd_nb (JInt 4)
           (Raised NotebookValidationError stub.bad_cell_msg));
    try reflexivity.
  discriminate.
Defined.

(** C3, as stated, fails for the unsupported version.  The package
    reports a declared version that has no schema as a validation error,
    and [validate] catches it like any other: for the document of major
    version 1 the run ends through [sys.exit(1)] with a clean message on
    standard output, not in an uncaught exception. *)
Lemma validate_unsupported_version_counterexample :
  holds_text stub.w0 "v1.ipynb" stub.v1_src
  ∧ parses_as stub.lib stub.v1_src stub.v1_nb
  ∧ declares stub.v1_nb (JInt 1)
  ∧ nbformat.schema_check stub.lib stub.v1_nb (JInt 1)
    = Exc (Raised ValidationError "No schema for validating v1.0 notebooks")
  ∧ (validate stub.lib "v1.ipynb" stub.w0).1 = Exc (SystemExit 1)
  ∧ stdout (validate stub.lib "v1.ipynb" stub.w0).2
    = "v1.ipynb No schema for validating v1.0 notebooks" +:+ nl.
Proof. repeat split; reflexivity. Qed.

(** C3, amended.  [validate] catches the instances of [ValidationError]
    and nothing else, wherever in the check they are raised: a failed
    look-up of the declared version that the package reports as a
    validation error takes the clean exit-1 path.  Whatever
    [is_notebook_valid] raises that is not an instance of
    [ValidationError] leaves [validate] as it came, with nothing printed;
    for an ordinary exception the process then ends with status 1 through
    the interpreter's traceback, by neither [sys.exit].  This covers a
    missing file, a file that may not be read, and text that does not
    parse or a version look-up that fails with an error of another
    class; a missing file is never reported as valid. *)
Theorem validate_propagates_other_errors
    (lib : nbformat.Lib) (w : World) (filename : string) :
  (* exactly the validation error is caught *)
  (∀ e, (is_notebook_valid lib filename w).1 = Exc e →
        if isinstance e ValidationError
        then (validate lib filename w).1 = Exc (SystemExit 1)
        else validate lib filename w
               = (Exc e, (is_notebook_valid lib filename w).2)
             ∧ stdout (validate lib filename w).2 = stdout w
             ∧ ∀ cls msg, e = Raised cls msg →
                 exit_status (validate lib filename w).1 = 1)
  (* file not found *)
  ∧ (fs w !! filename = None →
       (validate lib filename w).1 = Exc (Raised FileNotFoundError filename)
       ∧ exit_status (validate lib filename w).1 = 1
       ∧ stdout (validate lib filename w).2 = stdout w)
  (* permission denied *)
  ∧ (∀ text, fs w !! filename = Some (RegularFile false text) →
       (validate lib filename w).1 = Exc (Raised PermissionError filename)
       ∧ exit_status (validate lib filename w).1 = 1
       ∧ stdout (validate lib filename w).2 = stdout w)
  (* unparseable content, reported by an error of another class *)
  ∧ (∀ text cls msg,
       holds_text w filename text →
       nbformat.reads lib text NO_CONVERT = Exc (Raised cls msg) →
       issubclass cls ValidationError = false →
       (validate lib filename w).1 = Exc (Raised cls msg)
       ∧ exit_status (validate lib filename w).1 = 1
       ∧ stdout (validate lib filename w).2 = stdout w)
  (* the look-up of the declared version fails with another class *)
  ∧ (∀ text nb version cls msg,
       holds_text w filename text →
       parses_as lib text nb →
       declares nb version →
       nbformat.schema_check lib nb version = Exc (Raised cls msg) →
       issubclass cls ValidationError = false →
       (validate lib filename w).1 = Exc (Raised cls msg)
       ∧ exit_status (validate lib filename w).1 = 1
       ∧ stdout (validate lib filename w).2 = stdout w)
  (* the look-up of the declared version fails with a validation error *)
  ∧ (∀ text nb version error,
       holds_text w filename text →
       parses_as lib text nb →
       declares nb version →
       nbformat.schema_check lib nb version = Exc error →
       isinstance error ValidationError = true →
       (validate lib filename w).1 = Exc (SystemExit 1)
       ∧ exit_status (validate lib filename w).1 = 1
       ∧ stdout (validate lib filename w).2
         = stdout w +:+ (filename +:+ " " +:+ str error) +:+ nl).
Proof.
  unfold holds_text, parses_as, declares.
  split; [|split; [|split; [|split; [|split]]]].
  - intros e He. rewrite validate_run.
    destruct (is_notebook_valid_quiet lib filename w) as [Hout _].
    destruct (is_notebook_valid lib filename w) as [r w'].
    simpl in He, Hout. subst r.
    destruct (isinstance e ValidationError); simpl; [done|].
    repeat split; [done|]. by intros cls msg ->.
  - intros Hfs. rewrite validate_run, is_notebook_valid_run, Hfs. simpl. auto.
  - intros text Hfs.
    rewrite validate_run, is_notebook_valid_run, Hfs. simpl. auto.
  - intros text cls msg Hfs Hparse Hcls.
    rewrite validate_run, is_notebook_valid_run, Hfs. simpl.
    rewrite Hparse. simpl. rewrite Hcls. simpl. auto.
  - intros text nb version cls msg Hfs Hparse Hdecl Hbad Hcls.
    rewrite validate_run, is_notebook_valid_run, Hfs. simpl.
    rewrite Hparse, Hdecl, Hbad. simpl. rewrite Hcls. simpl. auto.
  - intros text nb version error Hfs Hparse Hdecl Hbad Hcls.
    rewrite validate_run, is_notebook_valid_run, Hfs. simpl.
    rewrite Hparse, Hdecl, Hbad. simpl. rewrite Hcls. simpl. auto.
Qed.

Lemma validate_propagates_other_errors_witness :
  fs stub.w1 !! "nope.ipynb" = None
  ∧ (validate stub.lib "nope.ipynb" stub.w1).1
    = Exc (Raised FileNotFoundError "nope.ipynb")
  ∧ exit_status (validate stub.lib "nope.ipynb" stub.w1).1 = 1
  ∧ stdout (validate stub.lib "nope.ipynb" stub.w1).2 = stdout stub.w1.
Proof.
  split; [reflexivity|].
  apply (validate_propagates_other_errors stub.lib stub.w1 "nope.ipynb").
  reflexivity.
Defined.

(** ** The check [is_notebook_valid] *)


(** The [with] statement gives the handle back whatever its block does,
    provided the block itself leaves the table of handles alone. *)
Lemma with_open_releases {A} (path : string) (body : nat → M A) (w : World) :
  (∀ fd w', open_fds (body fd w').2 = open_fds w') →
  open_fds (with_open path body w).2 = open_fds w.
Proof.
  intros Hbody. unfold with_open, open. simpl.
  destruct (fs w !! path) as [[[|] text|]|]; try reflexivity.
  match goal with |- context [body ?fd ?w1] =>
    specialize (Hbody fd w1); destruct (body fd w1) as [r w2] end.
  simpl in *. rewrite Hbody. simpl.
  apply delete_insert_id, not_elem_of_dom, is_fresh.
Qed.

(** C5.  Whatever happens in [is_notebook_valid] (the check returns, the
    text does not parse, reading raises, no version is declared, the
    schema check raises), the handle that [open] handed out is closed
    again when the function is left: it was in the table of open handles
    inside the [with] block, a [close] of it was issued, and the table at
    exit is the table at entry. *)
Theorem is_notebook_valid_releases_handle
    (lib : nbformat.Lib) (path : string) (w : World) :
  open_fds (is_notebook_valid lib path w).2 = open_fds w
  ∧ ∀ fd w1, open path w = (Ret fd, w1) →
      open_fds w !! fd = None
      ∧ open_fds w1 !! fd = Some path
      ∧ EvClose fd ∈ calls (is_notebook_valid lib path w).2
      ∧ open_fds (is_notebook_valid lib path w).2 !! fd = None.
Proof.
  assert (Hsame : open_fds (is_notebook_valid lib path w).2 = open_fds w).
  { rewrite is_notebook_valid_run.
    destruct (fs w !! path) as [[[|] text|]|]; simpl; try done.
    destruct (nbformat.reads lib text NO_CONVERT) as [nb|e]; [|done].
    destruct (dict_get nb "nbformat"); done. }
  split; [exact Hsame|].
  intros fd w1 Hopen. rewrite Hsame.
  assert (Hfresh : open_fds w !! fresh (dom (open_fds w)) = None)
    by apply not_elem_of_dom, is_fresh.
  revert Hopen. unfold open. simpl.
  rewrite is_notebook_valid_run.
  destruct (fs w !! path) as [[[|] text|]|]; try discriminate.
  intros [= <- <-]. simpl. rewrite lookup_insert_eq.
  repeat split; try done.
  destruct (nbformat.reads lib text NO_CONVERT) as [nb|e]; simpl.
  - destruct (dict_get nb "nbformat"); simpl; set_solver.
  - set_solver.
Qed.

Lemma is_notebook_valid_releases_handle_witness :
  open "bad.ipynb" stub.w1
  = (Ret 1%nat, set_open_fds (insert 1%nat "bad.ipynb")
                             (log (EvOpen "bad.ipynb") stub.w1))
  ∧ open_fds stub.w1 !! 1%nat = None
  ∧ EvClose 1 ∈ calls (is_notebook_valid stub.lib "bad.ipynb" stub.w1).2
  ∧ open_fds (is_notebook_valid stub.lib "bad.ipynb" stub.w1).2 !! 1%nat
    = None.
Proof.
  split; [reflexivity|].
  destruct (is_notebook_valid_releases_handle stub.lib "bad.ipynb" stub.w1)
    as [_ H].
  destruct (H 1%nat _ eq_refl) as (H1 & _ & H3 & H4).
  auto.
Defined.





(** C7.  What a conformant writer for version [V] emits is accepted: when
    the file holds the text such a writer produced for [V],
    [is_notebook_valid] returns without raising.  The check reads the
    text unconverted and validates it against the version the document
    itself declares, which for such a text is [V]. *)
Theorem is_notebook_valid_accepts_writer_output
    (lib : nbformat.Lib) (write : dict → Z → string) (V : Z)
    (nb : dict) (path : string) (w : World) :
  conformant_writer lib write V →
  holds_text w path (write nb V) →
  (is_notebook_valid lib path w).1 = Ret tt.
Proof.
  unfold holds_text. intros Hwriter Hfs.
  destruct (Hwriter nb) as (nb' & Hparse & Hdecl & Hok).
  unfold parses_as, declares in *.
  rewrite is_notebook_valid_run, Hfs. simpl.
  by rewrite Hparse, Hdecl.
Qed.

Lemma is_notebook_valid_accepts_writer_output_witness :
  conformant_writer stub.lib stub.write 4
  ∧ holds_text stub.w1 "good.ipynb" (stub.write [] 4)
  ∧ (is_notebook_valid stub.lib "good.ipynb" stub.w1).1 = Ret tt.
Proof.
  assert (Hwriter : conformant_writer stub.lib stub.write 4).
  { intros nb. exists stub.good_nb. repeat split; reflexivity. }
  split; [exact Hwriter|]. split; [reflexivity|].
  apply (is_notebook_valid_accepts_writer_output
           stub.lib stub.write 4 [] "good.ipynb" stub.w1 Hwriter).
  reflexivity.
Defined.

(** C8, as stated, fails.  A filename may contain a line break, and the
    text of a validation error usually has several lines; [validate]
    prints either as it is.  On a valid notebook stored under a name of
    two lines the success path writes two lines, and on the notebook with
    the unknown cell type the failure path writes three. *)
Lemma validate_one_line_counterexample :
  (validate stub.lib ("two" +:+ nl +:+ "lines.ipynb") stub.w0).1
  = Exc (SystemExit 0)
  ∧ count_lines
      (stdout (validate stub.lib ("two" +:+ nl +:+ "lines.ipynb") stub.w0).2)
    = 2%nat
  ∧ (validate stub.lib "odd.ipynb" stub.w0).1 = Exc (SystemExit 1)
  ∧ count_lines (stdout (validate stub.lib "odd.ipynb" stub.w0).2) = 3%nat
  ∧ ¬ one_line_on_each_clean_path.
Proof.
  repeat split; try reflexivity.
  intros Hclaim.
  specialize (Hclaim stub.lib stub.w0 ("two" +:+ nl +:+ "lines.ipynb")
                eq_refl (or_introl eq_refl)).
  vm_compute in Hclaim. discriminate.
Qed.

(** C8, amended.  Each of the two clean paths of [validate] prints once:
    the success path the filename and [ is valid], the handled failure
    path the filename and the text of the error; every print ends in one
    newline.  So the output has one line, plus one for each line break
    inside the filename and, on the failure path, inside the error text:
    exactly one line when these contain no line break. *)
Theorem validate_prints_once_per_clean_path
    (lib : nbformat.Lib) (w : World) (filename : string) :
  ((is_notebook_valid lib filename w).1 = Ret tt →
   ∃ out : string,
     stdout (validate lib filename w).2 = stdout w +:+ out
     ∧ out = (filename +:+ " is valid") +:+ nl
     ∧ count_lines out = (1 + count_lines filename)%nat
     ∧ (count_lines filename = 0%nat → count_lines out = 1%nat))
  ∧ (∀ error,
       (is_notebook_valid lib filename w).1 = Exc error →
       isinstance error ValidationError = true →
       ∃ out : string,
         stdout (validate lib filename w).2 = stdout w +:+ out
         ∧ out = (filename +:+ " " +:+ str error) +:+ nl
         ∧ count_lines out
           = (1 + count_lines filename + count_lines (str error))%nat
         ∧ (count_lines filename = 0%nat →
            count_lines (str error) = 0%nat →
            count_lines out = 1%nat)).
Proof.
  destruct (is_notebook_valid_quiet lib filename w) as [Hquiet _].
  split.
  - intros Hret. eexists. split; [|split; [reflexivity|]].
    + rewrite validate_run.
      destruct (is_notebook_valid lib filename w) as [r w'].
      simpl in Hret, Hquiet. subst r. simpl. by rewrite Hquiet.
    + rewrite !count_lines_append, count_lines_nl. simpl. lia.
  - intros error Hexc Hcls. eexists. split; [|split; [reflexivity|]].
    + rewrite validate_run.
      destruct (is_notebook_valid lib filename w) as [r w'].
      simpl in Hexc, Hquiet. subst r. rewrite Hcls. simpl.
      by rewrite Hquiet.
    + rewrite !count_lines_append, count_lines_nl. simpl. lia.
Qed.

Lemma validate_prints_once_per_clean_path_witness :
  (is_notebook_valid stub.lib "good.ipynb" stub.w1).1 = Ret tt
  ∧ count_lines "good.ipynb" = 0%nat
  ∧ ∃ out : string,
      stdout (validate stub.lib "good.ipynb" stub.w1).2
      = stdout stub.w1 +:+ out
      ∧ out = ("good.ipynb" +:+ " is valid") +:+ nl
      ∧ count_lines out = 1%nat.
Proof.
  split; [reflexivity|]. split; [reflexivity|].
  destruct (validate_prints_once_per_clean_path stub.lib stub.w1 "good.ipynb")
    as [Hsuccess _].
  destruct (Hsuccess eq_refl) as (out & Hout & Htext & _ & Hone).
  exists out. split; [exact Hout|]. split; [exact Htext|].
  apply Hone. reflexivity.
Defined.

(** ** The upload demo *)

Import demo.

(** C9.  With no file uploaded, [read_uploaded_file] prints its warning
    and goes on all the same: the subscript [value[0]] is evaluated and
    raises [IndexError]; nothing is returned, [Reading data...] is not
    printed and the spreadsheet reader is not called.  The warning never
    stands in the way of the subscript: with two or more files it is
    printed too, and the first file is then read. *)
Theorem read_uploaded_file_warns_then_indexes
    (DataFrame : Type) (read_excel_bytes : json → outcome DataFrame)
    (uploader : FileUpload) (w : World) :
  (value uploader = [] →
   read_uploaded_file DataFrame read_excel_bytes uploader w
   = (Exc (Raised IndexError "index out of range"),
      set_stdout
        (λ out, out +:+
           "This example code only works for a single uploaded file" +:+ nl)
        w))
  ∧ (∀ first second rest content,
       value uploader = first :: second :: rest →
       dict_get first "content" = Some content →
       read_uploaded_file DataFrame read_excel_bytes uploader w
       = (read_excel_bytes content,
          log (EvReadExcel content)
            (set_stdout
               (λ out, (out +:+
                  "This example code only works for a single uploaded file"
                  +:+ nl) +:+ "Reading data..." +:+ nl)
               w))).
Proof.
  unfold read_uploaded_file, mbind, M_bind. split.
  - intros Hempty. rewrite Hempty. reflexivity.
  - intros first second rest content Hvalue Hcontent.
    rewrite Hvalue. simpl. unfold getitem. rewrite Hcontent. simpl.
    unfold read_excel. simpl.
    destruct (read_excel_bytes content); reflexivity.
Qed.

Lemma read_uploaded_file_warns_then_indexes_witness :
  value (mkFileUpload []) = []
  ∧ read_uploaded_file unit (λ _, Ret tt) (mkFileUpload []) stub.w0
    = (Exc (Raised IndexError "index out of range"),
       set_stdout
         (λ out, out +:+
            "This example code only works for a single uploaded file"
            +:+ nl)
         stub.w0).
Proof.
  split; [reflexivity|].
  apply (read_uploaded_file_warns_then_indexes
           unit (λ _, Ret tt) (mkFileUpload []) stub.w0).
  reflexivity.
Defined.

(** ** The server extension hook *)

Import bokeh_server.

(** C10.  [_load_jupyter_server_extension] does not look at its argument:
    for any two arguments, of whatever classes, it does the same thing in
    the same world.  It makes one call, [Popen] on the fixed command line
    [bokeh serve bokeh-app --allow-websocket-origin=*], and no other: it
    neither waits for the child nor asks for its status.  When [bokeh]
    is found the child is started and the function returns [None]. *)
Theorem load_extension_ignores_serverapp
    (A B : Type) (a : A) (b : B) (w : World) :
  _load_jupyter_server_extension A a w = _load_jupyter_server_extension B b w
  ∧ calls (_load_jupyter_server_extension A a w).2
    = calls w ++ [EvPopen ["bokeh"; "serve"; "bokeh-app";
                           "--allow-websocket-origin=*"]]
  ∧ stdout (_load_jupyter_server_extension A a w).2 = stdout w
  ∧ if bool_decide ("bokeh" ∈ on_path w)
    then (_load_jupyter_server_extension A a w).1 = Ret tt
         ∧ children (_load_jupyter_server_extension A a w).2
           = children w ++ [["bokeh"; "serve"; "bokeh-app";
                             "--allow-websocket-origin=*"]]
    else (_load_jupyter_server_extension A a w).1
         = Exc (Raised FileNotFoundError "bokeh")
         ∧ children (_load_jupyter_server_extension A a w).2 = children w.
Proof.
  unfold _load_jupyter_server_extension, mbind, M_bind, Popen, bokeh_argv.
  simpl. destruct (bool_decide ("bokeh" ∈ on_path w)); simpl; auto.
Qed.

(** * Further properties of the scripts *)

(** ** [validate]: ways out, exit status, what it touches *)

(** X1.  [validate] never returns to its caller: every run ends in an
    exception, either one of its own [sys.exit] calls or one it lets
    through.  When the check raises no [SystemExit] of its own, the
    process status is 0 or 1, and it is 0 only when the check returned. *)
Theorem validate_always_exits
    (lib : nbformat.Lib) (w : World) (filename : string) :
  (∃ e, (validate lib filename w).1 = Exc e)
  ∧ ((∀ code, (is_notebook_valid lib filename w).1 ≠ Exc (SystemExit code)) →
     (exit_status (validate lib filename w).1 = 0
      ∧ (is_notebook_valid lib filename w).1 = Ret tt)
     ∨ (exit_status (validate lib filename w).1 = 1
        ∧ ∃ e, (is_notebook_valid lib filename w).1 = Exc e)).
Proof.
  rewrite validate_run.
  destruct (is_notebook_valid lib filename w) as [[[]|e] w']; simpl.
  - split; [eauto|]. intros _. left. done.
  - destruct (isinstance e ValidationError) eqn:Hcls; simpl.
    + split; [eauto|]. intros _. right. eauto.
    + split; [eauto|]. intros Hno. right. split; [|eauto].
      destruct e as [cls msg|code]; [done|]. by destruct (Hno code).
Qed.

Lemma validate_always_exits_witness :
  (∀ code, (is_notebook_valid stub.lib "notes.txt" stub.w1).1
           ≠ Exc (SystemExit code))
  ∧ ((exit_status (validate stub.lib "notes.txt" stub.w1).1 = 0
      ∧ (is_notebook_valid stub.lib "notes.txt" stub.w1).1 = Ret tt)
     ∨ (exit_status (validate stub.lib "notes.txt" stub.w1).1 = 1
        ∧ ∃ e, (is_notebook_valid stub.lib "notes.txt" stub.w1).1 = Exc e)).
Proof.
  assert (Hno : ∀ code, (is_notebook_valid stub.lib "notes.txt" stub.w1).1
                        ≠ Exc (SystemExit code)) by (intros code; discriminate).
  split; [exact Hno|].
  apply (validate_always_exits stub.lib stub.w1 "notes.txt"). exact Hno.
Defined.

(** X2.  A document that parses but has no ["nbformat"] key at its root
    is not reported as invalid: the subscript raises [KeyError], which
    [validate] does not catch.  Nothing is printed, the schema check is
    never called, the file has been closed, and the process ends with
    status 1 through the traceback. *)
Theorem validate_missing_version_key
    (lib : nbformat.Lib) (w : World) (filename text : string) (nb : dict) :
  holds_text w filename text →
  parses_as lib text nb →
  dict_get nb "nbformat" = None →
  (validate lib filename w).1 = Exc (Raised KeyError "nbformat")
  ∧ exit_status (validate lib filename w).1 = 1
  ∧ stdout (validate lib filename w).2 = stdout w
  ∧ open_fds (validate lib filename w).2 = open_fds w
  ∧ calls (validate lib filename w).2
    = calls w ++ [EvOpen filename;
                  EvNbRead (fresh (dom (open_fds w))) NO_CONVERT;
                  EvClose (fresh (dom (open_fds w)))].
Proof.
  unfold holds_text, parses_as. intros Hfs Hparse Hkey.
  rewrite validate_run, is_notebook_valid_run, Hfs. simpl.
  rewrite Hparse, Hkey. simpl. auto.
Qed.

Lemma validate_missing_version_key_witness :
  holds_text stub.w0 "notes.txt" "remember the milk"
  ∧ parses_as samples.versionless_lib "remember the milk"
      samples.versionless_nb
  ∧ dict_get samples.versionless_nb "nbformat" = None
  ∧ (validate samples.versionless_lib "notes.txt" stub.w0).1
    = Exc (Raised KeyError "nbformat")
  ∧ exit_status (validate samples.versionless_lib "notes.txt" stub.w0).1 = 1
  ∧ stdout (validate samples.versionless_lib "notes.txt" stub.w0).2
    = stdout stub.w0
  ∧ open_fds (validate samples.versionless_lib "notes.txt" stub.w0).2
    = open_fds stub.w0
  ∧ calls (validate samples.versionless_lib "notes.txt" stub.w0).2
    = calls stub.w0 ++ [EvOpen "notes.txt";
                        EvNbRead (fresh (dom (open_fds stub.w0))) NO_CONVERT;
                        EvClose (fresh (dom (open_fds stub.w0)))].
Proof.
  split; [reflexivity|]. split; [reflexivity|]. split; [reflexivity|].
  apply (validate_missing_version_key
           samples.versionless_lib stub.w0 "notes.txt" "remember the milk"
           samples.versionless_nb); reflexivity.
Defined.

(** X3.  The [try] block spans the whole check, the reading included.  A
    validation error raised while the file is read and parsed is caught
    like one from the schema check: filename and error text are printed
    and the process ends with status 1, although the schema check was
    never called.  The handle is closed all the same. *)
Theorem validate_catches_reader_validation_error
    (lib : nbformat.Lib) (w : World) (filename text : string) (error : exn) :
  holds_text w filename text →
  nbformat.reads lib text NO_CONVERT = Exc error →
  isinstance error ValidationError = true →
  (validate lib filename w).1 = Exc (SystemExit 1)
  ∧ stdout (validate lib filename w).2
    = stdout w +:+ (filename +:+ " " +:+ str error) +:+ nl
  ∧ open_fds (validate lib filename w).2 = open_fds w
  ∧ calls (validate lib filename w).2
    = calls w ++ [EvOpen filename;
                  EvNbRead (fresh (dom (open_fds w))) NO_CONVERT;
                  EvClose (fresh (dom (open_fds w)))].
Proof.
  unfold holds_text. intros Hfs Hread Hcls.
  rewrite validate_run, is_notebook_valid_run, Hfs. simpl.
  rewrite Hread. simpl. rewrite Hcls. simpl. auto.
Qed.

Lemma validate_catches_reader_validation_error_witness :
  holds_text stub.w1 "good.ipynb" stub.good_src
  ∧ (validate samples.strict_reader_lib "good.ipynb" stub.w1).1
    = Exc (SystemExit 1)
  ∧ stdout (validate samples.strict_reader_lib "good.ipynb" stub.w1).2
    = stdout stub.w1
      +:+ ("good.ipynb" +:+ " " +:+ str samples.strict_reader_error) +:+ nl
  ∧ open_fds (validate samples.strict_reader_lib "good.ipynb" stub.w1).2
    = open_fds stub.w1
  ∧ calls (validate samples.strict_reader_lib "good.ipynb" stub.w1).2
    = calls stub.w1 ++ [EvOpen "good.ipynb";
                        EvNbRead (fresh (dom (open_fds stub.w1))) NO_CONVERT;
                        EvClose (fresh (dom (open_fds stub.w1)))].
Proof.
  split; [reflexivity|].
  apply (validate_catches_reader_validation_error
           samples.strict_reader_lib stub.w1 "good.ipynb" stub.good_src
           samples.strict_reader_error); reflexivity.
Defined.

(** X4.  Whichever way [validate] ends, it has changed no file, left no
    handle open that was not open before, started no process and left
    the search path alone: standard output and the record of calls are
    all it adds to. *)
Theorem validate_touches_only_stdout
    (lib : nbformat.Lib) (w : World) (filename : string) :
  fs (validate lib filename w).2 = fs w
  ∧ open_fds (validate lib filename w).2 = open_fds w
  ∧ on_path (validate lib filename w).2 = on_path w
  ∧ children (validate lib filename w).2 = children w
  ∧ ∃ new_calls, calls (validate lib filename w).2 = calls w ++ new_calls.
Proof.
  rewrite validate_run, is_notebook_valid_run.
  destruct (fs w !! filename) as [[[|] text|]|]; simpl;
    try (repeat split; eauto; fail).
  destruct (nbformat.reads lib text NO_CONVERT) as [nb|e]; simpl.
  - destruct (dict_get nb "nbformat") as [version|]; simpl;
      [|repeat split; eauto].
    destruct (nbformat.schema_check lib nb version) as [[]|e]; simpl.
    + repeat split; try done. rewrite <- app_assoc. eauto.
    + destruct (isinstance e ValidationError); simpl;
        (repeat split; try done; rewrite <- app_assoc; eauto).
  - destruct (isinstance e ValidationError); simpl; repeat split; eauto.
Qed.

(** X5.  Whatever [validate] prints begins with the filename and ends in
    a newline; otherwise it prints nothing at all. *)
Theorem validate_output_begins_with_filename
    (lib : nbformat.Lib) (w : World) (filename : string) :
  stdout (validate lib filename w).2 = stdout w
  ∨ ∃ rest : string,
      stdout (validate lib filename w).2
      = stdout w +:+ (filename +:+ rest) +:+ nl.
Proof.
  rewrite validate_run.
  destruct (is_notebook_valid_quiet lib filename w) as [Hquiet _].
  destruct (is_notebook_valid lib filename w) as [[[]|e] w'];
    simpl in *; rewrite <- ?Hquiet.
  - right. eauto.
  - destruct (isinstance e ValidationError); simpl; [right; eauto | by left].
Qed.

(** ** [read_uploaded_file]: which upload is read *)

(** X6.  With at least one upload, only the first is read: its content
    goes to the spreadsheet reader, once, and what the reader returns or
    raises is the result.  Exactly one upload gives no warning; further
    uploads cost the warning and are otherwise ignored.
    [Reading data...] is printed before the reader is called. *)
Theorem read_uploaded_file_reads_first
    (DataFrame : Type) (read_excel_bytes : json → outcome DataFrame)
    (uploader : FileUpload) (w : World)
    (first : dict) (others : list dict) (content : json) :
  value uploader = first :: others →
  dict_get first "content" = Some content →
  (read_uploaded_file DataFrame read_excel_bytes uploader w).1
  = read_excel_bytes content
  ∧ stdout (read_uploaded_file DataFrame read_excel_bytes uploader w).2
    = (match others with
       | [] => stdout w
       | _ :: _ =>
           stdout w +:+
           "This example code only works for a single uploaded file" +:+ nl
       end) +:+ "Reading data..." +:+ nl
  ∧ calls (read_uploaded_file DataFrame read_excel_bytes uploader w).2
    = calls w ++ [EvReadExcel content].
Proof.
  intros Hvalue Hcontent.
  unfold read_uploaded_file, mbind, M_bind. rewrite Hvalue.
  destruct others as [|second rest]; simpl;
    unfold getitem; rewrite Hcontent; simpl; unfold read_excel; simpl;
    destruct (read_excel_bytes content); simpl; done.
Qed.

Lemma read_uploaded_file_reads_first_witness :
  value (mkFileUpload [samples.sheet_a]) = samples.sheet_a :: []
  ∧ dict_get samples.sheet_a "content" = Some (JStr "PK")
  ∧ (read_uploaded_file json samples.echo_excel
       (mkFileUpload [samples.sheet_a]) stub.w0).1
    = samples.echo_excel (JStr "PK")
  ∧ stdout (read_uploaded_file json samples.echo_excel
              (mkFileUpload [samples.sheet_a]) stub.w0).2
    = stdout stub.w0 +:+ "Reading data..." +:+ nl
  ∧ calls (read_uploaded_file json samples.echo_excel
             (mkFileUpload [samples.sheet_a]) stub.w0).2
    = calls stub.w0 ++ [EvReadExcel (JStr "PK")].
Proof.
  split; [reflexivity|]. split; [reflexivity|].
  apply (read_uploaded_file_reads_first json samples.echo_excel
           (mkFileUpload [samples.sheet_a]) stub.w0
           samples.sheet_a [] (JStr "PK")); reflexivity.
Defined.

(** X7.  When the first upload has no ["content"] entry the subscript
    raises [KeyError]: [Reading data...] has been printed by then, the
    spreadsheet reader is never called and nothing is returned.  Later
    uploads that do have content do not help. *)
Theorem read_uploaded_file_missing_content
    (DataFrame : Type) (read_excel_bytes : json → outcome DataFrame)
    (uploader : FileUpload) (w : World)
    (first : dict) (others : list dict) :
  value uploader = first :: others →
  dict_get first "content" = None →
  (read_uploaded_file DataFrame read_excel_bytes uploader w).1
  = Exc (Raised KeyError "content")
  ∧ calls (read_uploaded_file DataFrame read_excel_bytes uploader w).2
    = calls w
  ∧ ∃ before : string,
      stdout (read_uploaded_file DataFrame read_excel_bytes uploader w).2
      = (stdout w +:+ before) +:+ "Reading data..." +:+ nl.
Proof.
  intros Hvalue Hcontent.
  unfold read_uploaded_file, mbind, M_bind. rewrite Hvalue.
  destruct others as [|second rest]; simpl;
    unfold getitem; rewrite Hcontent; simpl.
  - repeat split; try done. exists "". by rewrite append_nil_r.
  - repeat split; try done. eauto.
Qed.

Lemma read_uploaded_file_missing_content_witness :
  value (mkFileUpload [samples.bare_entry; samples.sheet_b])
  = samples.bare_entry :: [samples.sheet_b]
  ∧ dict_get samples.bare_entry "content" = None
  ∧ (read_uploaded_file json samples.echo_excel
       (mkFileUpload [samples.bare_entry; samples.sheet_b]) stub.w0).1
    = Exc (Raised KeyError "content")
  ∧ calls (read_uploaded_file json samples.echo_excel
             (mkFileUpload [samples.bare_entry; samples.sheet_b]) stub.w0).2
    = calls stub.w0
  ∧ ∃ before : string,
      stdout (read_uploaded_file json samples.echo_excel
                (mkFileUpload [samples.bare_entry; samples.sheet_b])
                stub.w0).2
      = (stdout stub.w0 +:+ before) +:+ "Reading data..." +:+ nl.
Proof.
  split; [reflexivity|]. split; [reflexivity|].
  apply (read_uploaded_file_missing_content json samples.echo_excel
           (mkFileUpload [samples.bare_entry; samples.sheet_b]) stub.w0
           samples.bare_entry [samples.sheet_b]); reflexivity.
Defined.

(** ** [_load_jupyter_server_extension]: loading more than once *)

(** X8.  The hook keeps no record of having run: with [bokeh] installed,
    loading the extension twice starts two servers with the same command
    line, and both loads return [None]. *)
Theorem load_extension_twice_spawns_twice
    (A B : Type) (a : A) (b : B) (w : World) :
  "bokeh" ∈ on_path w →
  ((_load_jupyter_server_extension A a;;
    _load_jupyter_server_extension B b) w).1 = Ret tt
  ∧ children ((_load_jupyter_server_extension A a;;
               _load_jupyter_server_extension B b) w).2
    = children w ++ [bokeh_argv; bokeh_argv]
  ∧ calls ((_load_jupyter_server_extension A a;;
            _load_jupyter_server_extension B b) w).2
    = calls w ++ [EvPopen bokeh_argv; EvPopen bokeh_argv].
Proof.
  intros Hfound.
  unfold _load_jupyter_server_extension, mbind, M_bind, Popen, bokeh_argv.
  assert (Hyes : bool_decide ("bokeh" ∈ on_path w) = true)
    by (by apply bool_decide_eq_true_2).
  simpl. rewrite Hyes. simpl. rewrite Hyes. simpl.
  rewrite <- !app_assoc. done.
Qed.

Lemma load_extension_twice_spawns_twice_witness :
  "bokeh" ∈ on_path stub.w0
  ∧ ((_load_jupyter_server_extension unit tt;;
      _load_jupyter_server_extension nat 7%nat) stub.w0).1 = Ret tt
  ∧ children ((_load_jupyter_server_extension unit tt;;
               _load_jupyter_server_extension nat 7%nat) stub.w0).2
    = children stub.w0 ++ [bokeh_argv; bokeh_argv]
  ∧ calls ((_load_jupyter_server_extension unit tt;;
            _load_jupyter_server_extension nat 7%nat) stub.w0).2
    = calls stub.w0 ++ [EvPopen bokeh_argv; EvPopen bokeh_argv].
Proof.
  assert (Hfound : "bokeh" ∈ on_path stub.w0)
    by (apply (bool_decide_unpack _); vm_compute; exact I).
  split; [exact Hfound|].
  apply (load_extension_twice_spawns_twice unit nat tt 7%nat stub.w0 Hfound).
Defined.
